(** * The task list screen of the todos app

    A shallow embedding of the two [App] components of the repository:
    the screen that caches the task list in AsyncStorage (fetch, initial
    load, refresh, completion toggle, filter, render selection), and the
    earlier screen that only fetches.  State updates are functional
    updates of one [AppState] value; the network, the storage and the
    console are an explicit world threaded through every operation. *)

From stdpp Require Import base list strings pretty gmap.
From Stdlib Require Import ZArith Ascii.

Local Open Scope string_scope.
Local Open Scope Z_scope.
Local Open Scope list_scope.

(** ** Data model *)

(** [interface Task]; the ids of the endpoint are integers. *)
Record Task := mkTask {
  id : Z;
  title : string;
  completed : bool
}.

(** [enum FILTER]. *)
Inductive FILTER := ALL | COMPLETED | INCOMPLETE.

(** [interface AppState]; [error : string | null] is an option. *)
Record AppState := mkAppState {
  tasks : list Task;
  loading : bool;
  error : option string;
  refreshing : bool;
  filter : FILTER
}.

(** The argument of [useState]. *)
Definition initialState : AppState :=
  {| tasks := []; loading := true; error := None;
     refreshing := false; filter := ALL |}.

(** The object spreads [{...prevState, field: v}] of the source. *)
Definition with_tasks (v : list Task) (s : AppState) : AppState :=
  {| tasks := v; loading := loading s; error := error s;
     refreshing := refreshing s; filter := filter s |}.
Definition with_loading (v : bool) (s : AppState) : AppState :=
  {| tasks := tasks s; loading := v; error := error s;
     refreshing := refreshing s; filter := filter s |}.
Definition with_error (v : option string) (s : AppState) : AppState :=
  {| tasks := tasks s; loading := loading s; error := v;
     refreshing := refreshing s; filter := filter s |}.
Definition with_refreshing (v : bool) (s : AppState) : AppState :=
  {| tasks := tasks s; loading := loading s; error := error s;
     refreshing := v; filter := filter s |}.
Definition with_filter (v : FILTER) (s : AppState) : AppState :=
  {| tasks := tasks s; loading := loading s; error := error s;
     refreshing := refreshing s; filter := v |}.

(** [{...task, completed: !task.completed}]. *)
Definition flip (task : Task) : Task :=
  {| id := id task; title := title task;
     completed := negb (completed task) |}.

(** ** Pure parts of the component *)

(** The callback given to [state.tasks.filter]. *)
Definition keeps (f : FILTER) (task : Task) : bool :=
  match f with
  | COMPLETED => completed task
  | INCOMPLETE => negb (completed task)
  | ALL => true
  end.

Definition filteredTasks (s : AppState) : list Task :=
  List.filter (keeps (filter s)) (tasks s).

(** The [map] inside [toggleComplete]. *)
Definition toggle (taskId : Z) (l : list Task) : list Task :=
  List.map (fun task => if id task =? taskId then flip task else task) l.

(** Truthiness of a [string | null] in a condition: [null] and the
    empty string are both falsy. *)
Definition truthy (v : option string) : bool :=
  match v with
  | Some (String _ _) => true
  | Some EmptyString => false
  | None => false
  end.

(** What the component returns.  [ERROR] carries the text shown above the
    Retry button; [SKELETON] and [LIST] are drawn under the filter bar,
    whose highlighted button is [active]; [LIST] is the [FlatList] with
    its [data] and its [refreshing] flag. *)
Inductive View :=
| FULL_LOADING
| ERROR (text : string)
| SKELETON (active : FILTER)
| LIST (active : FILTER) (data : list Task) (pulling : bool).

Definition render (s : AppState) : View :=
  if loading s && negb (refreshing s) then FULL_LOADING
  else if truthy (error s) then ERROR (default EmptyString (error s))
  else if loading s && refreshing s then SKELETON (filter s)
  else LIST (filter s) (filteredTasks s) (refreshing s).

(** ** The world outside the component *)

(** What a rejected promise or a [throw] carries. *)
Inductive Failure := NetworkError | StorageError | SyntaxError.

(** What an operation does that can be seen from outside, in order:
    the state it hands to React, its requests, its storage calls and
    its console output. *)
Inductive Event :=
| SetState (next : AppState)
| Get (url : string)
| GetItem (key : string)
| SetItem (key value : string)
| ConsoleError (label : string) (err : Failure)
| ConsoleLog (label : string).

(** [state] is the React state of [App]; [AsyncStorage] the key-value
    store; [network] the answers the endpoint gives to the requests
    still to come, first request first ([None]: the request is
    rejected; no answer left: rejected too); [read_fault] and
    [write_fault] say whether [getItem] and [setItem] reject; [trace]
    is the list of events so far, oldest first. *)
Record World := mkWorld {
  state : AppState;
  AsyncStorage : gmap string string;
  network : list (option (list Task));
  read_fault : bool;
  write_fault : bool;
  trace : list Event
}.

Definition emit (e : Event) (w : World) : World :=
  {| state := state w; AsyncStorage := AsyncStorage w;
     network := network w; read_fault := read_fault w;
     write_fault := write_fault w; trace := trace w ++ [e] |}.

(** [JSON.stringify] and [JSON.parse] at the type of task arrays;
    [JSON_parse] gives [None] where [JSON.parse] throws. *)
Class Json := {
  JSON_stringify : list Task -> string;
  JSON_parse : string -> option (list Task)
}.

(** ** Asynchronous code: a state and exception monad over the world *)

Inductive Outcome (A : Type) :=
| Returned (a : A)
| Thrown (err : Failure).
Arguments Returned {A} a.
Arguments Thrown {A} err.

Definition Async (A : Type) : Type := World -> Outcome A * World.

Definition ret {A} (a : A) : Async A := fun w => (Returned a, w).

Definition throw {A} (err : Failure) : Async A := fun w => (Thrown err, w).

Definition bind {A B} (m : Async A) (k : A -> Async B) : Async B :=
  fun w =>
    match m w with
    | (Returned a, w') => k a w'
    | (Thrown err, w') => (Thrown err, w')
    end.

(** [try { body } catch (err) { handler }]: what [body] did before it
    threw stays done. *)
Definition try_catch {A} (body : Async A) (handler : Failure -> Async A)
  : Async A :=
  fun w =>
    match body w with
    | (Returned a, w') => (Returned a, w')
    | (Thrown err, w') => handler err w'
    end.

Declare Scope async_scope.
Delimit Scope async_scope with async.
Notation "x <- m ;; k" := (bind m (fun x => k))
  (at level 100, m at next level, right associativity) : async_scope.
Notation "m ;; k" := (bind m (fun _ => k))
  (at level 100, right associativity) : async_scope.
Local Open Scope async_scope.

(** Where an operation leaves the world, and what it did meanwhile. *)
Definition after {A} (m : Async A) (w : World) : World := snd (m w).
Definition result {A} (m : Async A) (w : World) : Outcome A := fst (m w).

(** [setState(prevState => f prevState)]: the updater is applied to the
    latest state, also when several calls are made in a row. *)
Definition setState (f : AppState -> AppState) : Async unit :=
  fun w =>
    let next := f (state w) in
    (Returned tt,
     emit (SetState next)
       {| state := next; AsyncStorage := AsyncStorage w;
          network := network w; read_fault := read_fault w;
          write_fault := write_fault w; trace := trace w |}).

(** [axios.get<Task[]>(url)], resolved to [response.data]. *)
Definition axios_get (url : string) : Async (list Task) :=
  fun w =>
    let w1 := emit (Get url) w in
    let rest :=
      {| state := state w1; AsyncStorage := AsyncStorage w1;
         network := tail (network w1); read_fault := read_fault w1;
         write_fault := write_fault w1; trace := trace w1 |} in
    match network w with
    | Some data :: _ => (Returned data, rest)
    | None :: _ => (Thrown NetworkError, rest)
    | [] => (Thrown NetworkError, rest)
    end.

(** [AsyncStorage.getItem(key)]: the stored string, or [null]. *)
Definition getItem (key : string) : Async (option string) :=
  fun w =>
    let w1 := emit (GetItem key) w in
    if read_fault w then (Thrown StorageError, w1)
    else (Returned (AsyncStorage w !! key), w1).

(** [AsyncStorage.setItem(key, value)]. *)
Definition setItem (key value : string) : Async unit :=
  fun w =>
    let w1 := emit (SetItem key value) w in
    if write_fault w then (Thrown StorageError, w1)
    else (Returned tt,
          {| state := state w1; AsyncStorage := <[key := value]> (AsyncStorage w1);
             network := network w1; read_fault := read_fault w1;
             write_fault := write_fault w1; trace := trace w1 |}).

Definition console_error (label : string) (err : Failure) : Async unit :=
  fun w => (Returned tt, emit (ConsoleError label err) w).

Definition console_log (label : string) : Async unit :=
  fun w => (Returned tt, emit (ConsoleLog label) w).

(** The two literals of the source. *)
Definition endpoint : string := "https://jsonplaceholder.typicode.com/todos".
Definition failed_to_load : string :=
  "Failed to load tasks. Please try again later.".

(** ** The screen with the cache *)

Section Screen.
Context {J : Json}.

(** [JSON.parse(raw)], throwing on text that is not JSON. *)
Definition parse (raw : string) : Async (list Task) :=
  match JSON_parse raw with
  | Some l => ret l
  | None => throw SyntaxError
  end.

(** [fetchTasks]: the reset is outside the [try]; the request, the
    update and the cache write are inside it, under one [catch]. *)
Definition fetchTasks : Async unit :=
  setState (fun prevState => with_error None (with_loading true prevState)) ;;
  try_catch
    (response <- axios_get endpoint ;;
     setState (fun prevState =>
                 with_loading false (with_tasks response prevState)) ;;
     setItem "tasks" (JSON_stringify response))
    (fun err =>
       console_error "Error fetching tasks:" err ;;
       setState (fun prevState =>
                   with_error (Some failed_to_load)
                     (with_loading false prevState))).

(** [loadStoredTasks], run once by the effect.  [if (storedTasks)]
    takes a non-empty string only.  [JSON.parse] is written inside the
    updater; it is run here when [setState] is called, so that text
    which does not parse raises inside the [try] and reaches the
    [catch], the fallback its comment announces.  The two
    [fetchTasks()] calls are not awaited: nothing follows them and a
    fetch never throws, so the events are those of an awaited call. *)
Definition loadStoredTasks : Async unit :=
  try_catch
    (storedTasks <- getItem "tasks" ;;
     setState (fun prevState =>
                 with_refreshing false (with_loading false prevState)) ;;
     if truthy storedTasks then
       parsed <- parse (default EmptyString storedTasks) ;;
       setState (fun prevState =>
                   with_loading false (with_tasks parsed prevState))
     else fetchTasks)
    (fun err =>
       console_error "Failed to load tasks from storage" err ;;
       fetchTasks).

(** [toggleComplete]. *)
Definition toggleComplete (taskId : Z) : Async unit :=
  setState (fun prevState =>
              with_tasks (toggle taskId (tasks prevState)) prevState).

(** [handleRefresh]. *)
Definition handleRefresh : Async unit :=
  setState (fun prevState => with_refreshing true prevState) ;;
  fetchTasks ;;
  setState (fun prevState => with_refreshing false prevState).

(** The [onPress] of the three filter buttons; each passes its own
    constant. *)
Definition onPress (f : FILTER) : Async unit :=
  setState (fun prevState => with_filter f prevState).

End Screen.

(** ** The screen without the cache ([src/App.tsx]) *)

Module Template.

(** Its [fetchTasks] logs the response and stores nothing. *)
Definition fetchTasks : Async unit :=
  setState (fun prevState => with_error None (with_loading true prevState)) ;;
  try_catch
    (response <- axios_get endpoint ;;
     console_log "response" ;;
     setState (fun prevState =>
                 with_loading false (with_tasks response prevState)))
    (fun err =>
       console_error "Error fetching tasks:" err ;;
       setState (fun prevState =>
                   with_error (Some failed_to_load)
                     (with_loading false prevState))).

(** Its [loadTasks], under the comment [Load tasks from AsyncStorage on
    initial load]: no storage call is made, and [fetchTasks] is awaited
    whatever the storage holds, although the line is commented [Fetch
    from API if no data in storage]. *)
Definition loadTasks : Async unit :=
  try_catch
    (setState (fun prevState =>
                 with_refreshing false (with_loading false prevState)) ;;
     fetchTasks ;;
     console_log "tasks")
    (fun err =>
       console_error "Failed to load tasks from storage" err ;;
       fetchTasks).

End Template.

(** ** Reading a trace *)

Definition is_Get (e : Event) : bool :=
  match e with Get _ => true | _ => false end.

(** The number of requests sent to the endpoint in a trace. *)
Definition requests (t : list Event) : nat := length (List.filter is_Get t).

(** The states handed to React in a trace, in order. *)
Fixpoint states (t : list Event) : list AppState :=
  match t with
  | [] => []
  | SetState s :: t' => s :: states t'
  | _ :: t' => states t'
  end.

(** What an operation appended to the trace of the world it started in. *)
Definition did {A} (m : Async A) (w : World) : list Event :=
  drop (length (trace w)) (trace (after m w)).

(** ** Operations and transitions *)

(** The ways the state of the caching screen is changed: the effect run
    at mount, a refresh, a fetch by itself, a completion toggle and a
    filter button. *)
Inductive Action :=
| Mount
| Refresh
| Fetch
| Toggle (taskId : Z)
| Press (f : FILTER).

Definition perform {J : Json} (a : Action) : Async unit :=
  match a with
  | Mount => loadStoredTasks
  | Refresh => handleRefresh
  | Fetch => fetchTasks
  | Toggle taskId => toggleComplete taskId
  | Press f => onPress f
  end.

(** A state followed by the states that came after it, as the list of
    single transitions (before, after). *)
Fixpoint steps (s : AppState) (l : list AppState) : list (AppState * AppState) :=
  match l with
  | [] => []
  | s' :: l' => (s, s') :: steps s' l'
  end.

(** The transitions of the state during one operation. *)
Definition transitions {A} (m : Async A) (w : World)
  : list (AppState * AppState) :=
  steps (state w) (states (did m w)).

(** The endpoint answers the next request with a task list. *)
Definition answered (w : World) : option (list Task) :=
  match network w with
  | Some data :: _ => Some data
  | _ => None
  end.

(** The states a fetch hands to React, from the state it found: at its
    start, after an answer, and in its [catch]. *)
Definition fetch_reset (s : AppState) : AppState :=
  with_error None (with_loading true s).
Definition fetch_done (data : list Task) (s : AppState) : AppState :=
  with_loading false (with_tasks data (fetch_reset s)).
Definition fetch_failed (s : AppState) : AppState :=
  with_error (Some failed_to_load) (with_loading false s).

(** The state the mount effect hands over first. *)
Definition load_reset (s : AppState) : AppState :=
  with_refreshing false (with_loading false s).

(** The three ways a fetch can go. *)
Variant fetch_case (w : World) : Prop :=
| fetch_stored data :
    answered w = Some data → write_fault w = false → fetch_case w
| fetch_unstored data :
    answered w = Some data → write_fault w = true → fetch_case w
| fetch_rejected : answered w = None → fetch_case w.

(** ** A concrete codec and sample data *)

Module Sample.

Definition quote : string := String "034"%char EmptyString.

Definition bool_json (b : bool) : string := if b then "true" else "false".

(** One task as JSON text (titles are written as they are). *)
Definition task_json (task : Task) : string :=
  "{" +:+ quote +:+ "id" +:+ quote +:+ ":" +:+ pretty (id task) +:+ ","
      +:+ quote +:+ "title" +:+ quote +:+ ":"
      +:+ quote +:+ title task +:+ quote +:+ ","
      +:+ quote +:+ "completed" +:+ quote +:+ ":"
      +:+ bool_json (completed task) +:+ "}".

Fixpoint join (sep : string) (parts : list string) : string :=
  match parts with
  | [] => EmptyString
  | [p] => p
  | p :: rest => p +:+ sep +:+ join sep rest
  end.

Definition to_json (l : list Task) : string :=
  "[" +:+ join "," (List.map task_json l) +:+ "]".

(** A codec that writes JSON text and reads back the text of the
    collections in [known]; any other text does not parse. *)
Definition codec (known : list (list Task)) : Json :=
  {| JSON_stringify := to_json;
     JSON_parse := fun raw =>
       List.find (fun l => String.eqb (to_json l) raw) known |}.

Definition milk : Task := mkTask 1 "Buy milk" false.
Definition bills : Task := mkTask 2 "Pay bills" true.

Definition json : Json := codec [[]; [milk]; [bills]; [milk; bills]].

(** The world at start-up: the initial state, a storage, the answers
    of the endpoint and the storage faults. *)
Definition boot (store : gmap string string)
    (answers : list (option (list Task))) (rfault wfault : bool) : World :=
  {| state := initialState; AsyncStorage := store; network := answers;
     read_fault := rfault; write_fault := wfault; trace := [] |}.

(** The screen at rest, showing [l] under filter [f]; with
    [failed_to_load] as [error] it is the error screen. *)
Definition showing (l : list Task) (f : FILTER) (e : option string)
  : AppState :=
  {| tasks := l; loading := false; error := e;
     refreshing := false; filter := f |}.

(** The world around a screen that is already up. *)
Definition later (s : AppState) (answers : list (option (list Task)))
    (wfault : bool) : World :=
  {| state := s; AsyncStorage := ∅; network := answers;
     read_fault := false; write_fault := wfault; trace := [] |}.

End Sample.

(** ** What the list and the filter bar draw *)

(** The [mode] prop of a filter button. *)
Inductive ButtonMode := Contained | Text.

(** [state.filter === FILTER.X]. *)
Definition same_filter (a b : FILTER) : bool :=
  match a, b with
  | ALL, ALL | COMPLETED, COMPLETED | INCOMPLETE, INCOMPLETE => true
  | _, _ => false
  end.

(** The three buttons of the filter bar, in order: caption, mode and
    the filter their [onPress] sets. *)
Definition filterBar (s : AppState) : list (string * ButtonMode * FILTER) :=
  List.map
    (fun b : string * FILTER =>
       (b.1, if same_filter (filter s) b.2 then Contained else Text, b.2))
    [("All Tasks", ALL); ("Completed", COMPLETED); ("Incomplete", INCOMPLETE)].

(** What [renderItem] draws for one task: the title, whether the card
    has the completed background and the title the struck-through style,
    the icon of the button, its caption, its accessibility label, and
    the id its [onPress] hands to [toggleComplete]. *)
Record CardView := mkCardView {
  card_title : string;
  completedCard : bool;
  completedText : bool;
  icon : string;
  caption : string;
  accessibilityLabel : string;
  pressed : Z
}.

Definition renderItem (item : Task) : CardView :=
  {| card_title := title item;
     completedCard := completed item;
     completedText := completed item;
     icon := if completed item then "checkbox-outline"
             else "checkbox-blank-outline";
     caption := if completed item then "Unmark as complete"
                else "Mark as complete";
     accessibilityLabel := if completed item then "Unmark as complete"
                           else "Mark as complete";
     pressed := id item |}.


(** ** States the screen can be in *)

(** [error] is null or the one message of the source, and it is null
    while [loading] is true. *)
Definition coherent (s : AppState) : Prop :=
  (error s = None ∨ error s = Some failed_to_load)
  ∧ (loading s = true → error s = None).

(** The states handed to React from start-up on: each is produced by an
    operation started in a world whose state was produced before. *)
Inductive reachable {J : Json} : AppState → Prop :=
| reach_start : reachable initialState
| reach_update a w s :
    reachable (state w) → s ∈ states (did (perform a) w) → reachable s.

(** The text stored under the key, if any and not empty, is JSON. *)
Definition readable {J : Json} (w : World) : Prop :=
  ∀ raw, AsyncStorage w !! "tasks" = Some raw →
         raw = EmptyString ∨ is_Some (JSON_parse raw).

(** * Properties *)

(** ** Filtering *)

Lemma keep_all (l : list Task) : List.filter (keeps ALL) l = l.
Proof.
  induction l as [|task l IH]; simpl; [reflexivity | now rewrite IH].
Qed.

Lemma filter_keeps_sublist (f : FILTER) (l : list Task) :
  List.filter (keeps f) l `sublist_of` l.
Proof.
  induction l as [|task l IH]; simpl.
  - constructor.
  - destruct (keeps f task); now constructor.
Qed.

Lemma filter_keeps_elem (f : FILTER) (l : list Task) (task : Task) :
  task ∈ List.filter (keeps f) l ↔ task ∈ l ∧ keeps f task = true.
Proof.
  rewrite !list_elem_of_In. apply filter_In.
Qed.

Lemma completed_incomplete_split (l : list Task) :
  List.filter (keeps COMPLETED) l ++ List.filter (keeps INCOMPLETE) l ≡ₚ l.
Proof.
  induction l as [|task l IH]; simpl; [reflexivity|].
  destruct (completed task); simpl.
  - now rewrite IH.
  - rewrite <- Permutation_middle. now rewrite IH.
Qed.

(** C7.  For every state: under [ALL] the shown list is the task list
    itself; under [COMPLETED] a task is shown exactly when it is in the
    list with [completed = true], under [INCOMPLETE] exactly when it is in
    the list with [completed = false]; whatever the filter, the shown list
    is the task list with some elements left out, the others in their
    order; and the [COMPLETED] list followed by the [INCOMPLETE] list is a
    rearrangement of the whole task list (same elements, same number of
    times). *)
Theorem filteredTasks_partition (s : AppState) :
  filteredTasks (with_filter ALL s) = tasks s
  ∧ (∀ task, task ∈ filteredTasks (with_filter COMPLETED s)
             ↔ task ∈ tasks s ∧ completed task = true)
  ∧ (∀ task, task ∈ filteredTasks (with_filter INCOMPLETE s)
             ↔ task ∈ tasks s ∧ completed task = false)
  ∧ (∀ f, filteredTasks (with_filter f s) `sublist_of` tasks s)
  ∧ filteredTasks (with_filter COMPLETED s)
      ++ filteredTasks (with_filter INCOMPLETE s) ≡ₚ tasks s.
Proof.
  unfold filteredTasks; simpl.
  split; [apply keep_all|].
  split; [intros task; apply filter_keeps_elem|].
  split.
  { intros task. rewrite filter_keeps_elem. simpl.
    now rewrite negb_true_iff. }
  split; [intros f; apply filter_keeps_sublist|].
  apply completed_incomplete_split.
Qed.

(** ** Toggling *)

Lemma flip_flip (task : Task) : flip (flip task) = task.
Proof. destruct task as [i t c]. unfold flip; simpl. now rewrite negb_involutive. Qed.

Lemma toggle_toggle (taskId : Z) (l : list Task) :
  toggle taskId (toggle taskId l) = l.
Proof.
  induction l as [|task l IH]; simpl; [reflexivity|].
  fold (toggle taskId l). fold (toggle taskId (toggle taskId l)).
  rewrite IH. f_equal.
  destruct (id task =? taskId) eqn:E; simpl; rewrite E; [apply flip_flip | reflexivity].
Qed.

Lemma toggle_absent (taskId : Z) (l : list Task) :
  (∀ task, task ∈ l → id task ≠ taskId) → toggle taskId l = l.
Proof.
  induction l as [|task l IH]; intros Hno; simpl; [reflexivity|].
  fold (toggle taskId l). rewrite IH.
  - assert (id task ≠ taskId) as Hne by (apply Hno; left).
    apply Z.eqb_neq in Hne. now rewrite Hne.
  - intros other Hin. apply Hno. now right.
Qed.

Lemma toggle_lookup (taskId : Z) (l : list Task) (i : nat) :
  toggle taskId l !! i
  = (λ task, if id task =? taskId then flip task else task) <$> l !! i.
Proof. unfold toggle. apply list_lookup_fmap. Qed.

Lemma state_eta (s : AppState) :
  {| tasks := tasks s; loading := loading s; error := error s;
     refreshing := refreshing s; filter := filter s |} = s.
Proof. now destruct s. Qed.

(** C8.  For every world and every id: after [toggleComplete] has run
    twice with that id the state is the state before, so every task has
    its first [completed] value (and its id, title and place); and when
    no task of the list has that id, one [toggleComplete] leaves the
    state, hence [tasks], as it was, and returns without throwing. *)
Theorem toggleComplete_twice (taskId : Z) (w : World) :
  state (after (toggleComplete taskId ;; toggleComplete taskId) w) = state w
  ∧ List.map completed
      (tasks (state (after (toggleComplete taskId ;; toggleComplete taskId) w)))
    = List.map completed (tasks (state w))
  ∧ ((∀ task, task ∈ tasks (state w) → id task ≠ taskId) →
     state (after (toggleComplete taskId) w) = state w
     ∧ result (toggleComplete taskId) w = Returned tt).
Proof.
  assert (state (after (toggleComplete taskId ;; toggleComplete taskId) w)
          = state w) as E.
  { unfold after, toggleComplete, bind, setState, with_tasks; simpl.
    rewrite toggle_toggle. apply state_eta. }
  split; [exact E|]. split; [now rewrite E|].
  intros Hno. split; [|reflexivity].
  unfold after, toggleComplete, setState, with_tasks; simpl.
  rewrite toggle_absent by assumption. apply state_eta.
Qed.

(** C9.  For every world and every id, [toggleComplete] keeps the
    length of the list and, place by place, the id and the title of
    each task; the task at a place has its [completed] flag negated
    when its id is the given one and is the same task otherwise; the
    [loading], [refreshing], [error] and [filter] fields are those of
    before; the storage and the pending answers of the endpoint are
    untouched, and the only event is the state update. *)
Theorem toggleComplete_frame (taskId : Z) (w : World) :
  let s := state w in
  let s' := state (after (toggleComplete taskId) w) in
  length (tasks s') = length (tasks s)
  ∧ (∀ i task, tasks s !! i = Some task →
       ∃ task', tasks s' !! i = Some task'
         ∧ id task' = id task ∧ title task' = title task
         ∧ (id task = taskId → completed task' = negb (completed task))
         ∧ (id task ≠ taskId → task' = task))
  ∧ loading s' = loading s ∧ refreshing s' = refreshing s
  ∧ error s' = error s ∧ filter s' = filter s
  ∧ AsyncStorage (after (toggleComplete taskId) w) = AsyncStorage w
  ∧ network (after (toggleComplete taskId) w) = network w
  ∧ trace (after (toggleComplete taskId) w) = trace w ++ [SetState s'].
Proof.
  simpl. unfold after, toggleComplete, setState, with_tasks; simpl.
  split; [apply length_map|].
  split; [|repeat split].
  intros i task Hi. rewrite toggle_lookup, Hi. simpl.
  destruct (Z.eqb_spec (id task) taskId) as [Heq|Hne].
  - exists (flip task). repeat split. intros Hne. now destruct Hne.
  - exists task. repeat split. intros Heq. now destruct Hne.
Qed.

(** C10.  For every world and each of the three filters, pressing its
    button gives the state of before with [filter] replaced by it:
    [tasks], [loading], [refreshing] and [error] are those of before;
    the only event is that state update. *)
Theorem onPress_frame (f : FILTER) (w : World) :
  let s := state w in
  let s' := state (after (onPress f) w) in
  filter s' = f
  ∧ tasks s' = tasks s ∧ loading s' = loading s
  ∧ refreshing s' = refreshing s ∧ error s' = error s
  ∧ AsyncStorage (after (onPress f) w) = AsyncStorage w
  ∧ network (after (onPress f) w) = network w
  ∧ trace (after (onPress f) w) = trace w ++ [SetState s'].
Proof. simpl. repeat split. Qed.

(** ** Running the operations *)

Ltac run :=
  unfold transitions, did, after, result, perform, loadStoredTasks,
    handleRefresh, fetchTasks, toggleComplete, onPress, parse, bind,
    try_catch, ret, throw, setState, axios_get, getItem, setItem,
    console_error, console_log, emit, answered in *;
  simpl in *.

Ltac tidy :=
  simpl; rewrite <- ?app_assoc; simpl; rewrite ?drop_app_length; simpl.

Section Runs.
Context {J : Json}.

(** The endpoint answers and the write goes through. *)
Lemma fetchTasks_stored (w : World) (data : list Task) :
  answered w = Some data → write_fault w = false →
  fetchTasks w =
    (Returned tt,
     {| state := fetch_done data (state w);
        AsyncStorage := <["tasks" := JSON_stringify data]> (AsyncStorage w);
        network := tail (network w);
        read_fault := read_fault w; write_fault := false;
        trace := trace w ++
          [SetState (fetch_reset (state w)); Get endpoint;
           SetState (fetch_done data (state w));
           SetItem "tasks" (JSON_stringify data)] |}).
Proof.
  intros Ha Hw. run. rewrite Hw.
  destruct (network w) as [|[d|] rest]; simplify_eq; tidy. reflexivity.
Qed.

(** The endpoint answers and the write is rejected: the [catch] of the
    fetch runs after the update. *)
Lemma fetchTasks_unstored (w : World) (data : list Task) :
  answered w = Some data → write_fault w = true →
  fetchTasks w =
    (Returned tt,
     {| state := fetch_failed (fetch_done data (state w));
        AsyncStorage := AsyncStorage w;
        network := tail (network w);
        read_fault := read_fault w; write_fault := true;
        trace := trace w ++
          [SetState (fetch_reset (state w)); Get endpoint;
           SetState (fetch_done data (state w));
           SetItem "tasks" (JSON_stringify data);
           ConsoleError "Error fetching tasks:" StorageError;
           SetState (fetch_failed (fetch_done data (state w)))] |}).
Proof.
  intros Ha Hw. run. rewrite Hw.
  destruct (network w) as [|[d|] rest]; simplify_eq; tidy. reflexivity.
Qed.

(** The request is rejected. *)
Lemma fetchTasks_rejected (w : World) :
  answered w = None →
  fetchTasks w =
    (Returned tt,
     {| state := fetch_failed (fetch_reset (state w));
        AsyncStorage := AsyncStorage w;
        network := tail (network w);
        read_fault := read_fault w; write_fault := write_fault w;
        trace := trace w ++
          [SetState (fetch_reset (state w)); Get endpoint;
           ConsoleError "Error fetching tasks:" NetworkError;
           SetState (fetch_failed (fetch_reset (state w)))] |}).
Proof.
  intros Ha. run.
  destruct (network w) as [|[d|] rest]; simplify_eq; tidy; reflexivity.
Qed.

(** A fetch never throws: its [catch] takes everything. *)
Lemma fetchTasks_returns (w : World) : result fetchTasks w = Returned tt.
Proof.
  unfold result. destruct (answered w) as [data|] eqn:Ha.
  - destruct (write_fault w) eqn:Hw.
    + now rewrite (fetchTasks_unstored w data).
    + now rewrite (fetchTasks_stored w data).
  - now rewrite fetchTasks_rejected.
Qed.

Lemma fetch_cases (w : World) : fetch_case w.
Proof.
  destruct (answered w) as [data|] eqn:Ha; [destruct (write_fault w) eqn:Hw|].
  - now apply (fetch_unstored w data).
  - now apply (fetch_stored w data).
  - now apply fetch_rejected.
Qed.

(** One request per fetch. *)
Lemma fetchTasks_requests (w : World) : requests (did fetchTasks w) = 1%nat.
Proof.
  unfold did, after.
  destruct (fetch_cases w) as [data Ha Hw|data Ha Hw|Ha].
  - rewrite (fetchTasks_stored w data) by assumption. tidy. reflexivity.
  - rewrite (fetchTasks_unstored w data) by assumption. tidy. reflexivity.
  - rewrite fetchTasks_rejected by assumption. tidy. reflexivity.
Qed.

Lemma fetchTasks_trace (w : World) :
  trace (after fetchTasks w) = trace w ++ did fetchTasks w.
Proof.
  unfold did, after.
  destruct (fetch_cases w) as [data Ha Hw|data Ha Hw|Ha].
  - rewrite (fetchTasks_stored w data) by assumption. now tidy.
  - rewrite (fetchTasks_unstored w data) by assumption. now tidy.
  - rewrite fetchTasks_rejected by assumption. now tidy.
Qed.

Lemma fetchTasks_run (w : World) :
  fetchTasks w = (Returned tt, after fetchTasks w).
Proof.
  pose proof (fetchTasks_returns w) as Hr. unfold result, after in *.
  destruct (fetchTasks w) as [r w']. simpl in *. now subst.
Qed.

Lemma handleRefresh_run (w : World) :
  handleRefresh w =
    (Returned tt,
     after (setState (with_refreshing false))
       (after fetchTasks (after (setState (with_refreshing true)) w))).
Proof.
  change (handleRefresh w) with
    (match fetchTasks (after (setState (with_refreshing true)) w) with
     | (Returned _, w2) => setState (with_refreshing false) w2
     | (Thrown err, w2) => (Thrown err, w2)
     end).
  now rewrite fetchTasks_run.
Qed.

Lemma handleRefresh_did (w : World) :
  did handleRefresh w =
    SetState (with_refreshing true (state w))
    :: did fetchTasks (after (setState (with_refreshing true)) w)
    ++ [SetState (with_refreshing false
          (state (after fetchTasks (after (setState (with_refreshing true)) w))))].
Proof.
  unfold did at 1, after at 1. rewrite handleRefresh_run.
  cbn [snd].
  change (trace (after (setState (with_refreshing false)) ?x))
    with (trace x ++ [SetState (with_refreshing false (state x))]).
  rewrite fetchTasks_trace.
  change (trace (after (setState (with_refreshing true)) w))
    with (trace w ++ [SetState (with_refreshing true (state w))]).
  now tidy.
Qed.

End Runs.

Section Fetching.
Context {J : Json}.

(** What a fetch gives when the endpoint answers and the write goes
    through: the answer as [tasks], [loading] false, no error, and the
    serialised answer in the cache. *)
Lemma fetchTasks_success (w : World) (data : list Task) :
  answered w = Some data → write_fault w = false →
  let w' := after fetchTasks w in
  tasks (state w') = data ∧ loading (state w') = false
  ∧ error (state w') = None
  ∧ AsyncStorage w' !! "tasks" = Some (JSON_stringify data)
  ∧ result fetchTasks w = Returned tt.
Proof.
  intros Ha Hw. unfold after, result.
  rewrite (fetchTasks_stored w data) by assumption. simpl.
  repeat split. apply lookup_insert_eq.
Qed.

(** C2.  A run of [fetchTasks] in which the endpoint answers and
    [setItem] rejects: [tasks] is the answer and [loading] is false,
    the write was attempted with the serialised answer and the storage
    is as before, the call returns without throwing; but the [catch]
    of the fetch has run on the storage failure, so [error] is the
    failure message, not null, and the screen drawn is the error
    screen. *)
Theorem fetchTasks_write_rejected (w : World) (data : list Task) :
  answered w = Some data → write_fault w = true →
  let w' := after fetchTasks w in
  tasks (state w') = data ∧ loading (state w') = false
  ∧ SetItem "tasks" (JSON_stringify data) ∈ did fetchTasks w
  ∧ AsyncStorage w' = AsyncStorage w
  ∧ result fetchTasks w = Returned tt
  ∧ ConsoleError "Error fetching tasks:" StorageError ∈ did fetchTasks w
  ∧ error (state w') = Some failed_to_load
  ∧ render (state w') = ERROR failed_to_load.
Proof.
  intros Ha Hw. unfold did, after, result.
  rewrite (fetchTasks_unstored w data) by assumption. tidy.
  split; [reflexivity|]. split; [reflexivity|].
  split; [do 3 right; left|].
  split; [reflexivity|]. split; [reflexivity|].
  split; [do 4 right; left|].
  split; reflexivity.
Qed.

(** C5.  Every run of [handleRefresh], in every world: its events are
    the update that sets [refreshing] to true, then those of one run of
    [fetchTasks], then the update that sets [refreshing] to false on
    the state the fetch left; one request is sent; the call returns
    without throwing and [refreshing] is false at the end, whether the
    endpoint answered or not; and when the request is rejected, [tasks]
    is the list of before the refresh, [error] is the failure message
    and [loading] is false. *)
Theorem handleRefresh_spec (w : World) :
  let w1 := after (setState (with_refreshing true)) w in
  let w' := after handleRefresh w in
  refreshing (state w1) = true
  ∧ did handleRefresh w =
      SetState (state w1) :: did fetchTasks w1
      ++ [SetState (with_refreshing false (state (after fetchTasks w1)))]
  ∧ requests (did handleRefresh w) = 1%nat
  ∧ result handleRefresh w = Returned tt
  ∧ refreshing (state w') = false
  ∧ (answered w = None →
     tasks (state w') = tasks (state w)
     ∧ error (state w') = Some failed_to_load
     ∧ loading (state w') = false).
Proof.
  intros w1 w'.
  split; [reflexivity|].
  split; [apply handleRefresh_did|].
  split.
  { rewrite handleRefresh_did. unfold requests. simpl.
    rewrite List.filter_app, length_app. simpl.
    fold (requests (did fetchTasks (after (setState (with_refreshing true)) w))).
    rewrite fetchTasks_requests. reflexivity. }
  unfold w', result, after. rewrite handleRefresh_run. simpl.
  split; [reflexivity|]. split; [reflexivity|].
  intros Ha. unfold after.
  rewrite (fetchTasks_rejected (after (setState (with_refreshing true)) w))
    by exact Ha.
  repeat split.
Qed.

End Fetching.

Section Loading.
Context {J : Json}.



(** The cache holds text that parses: two updates, no request. *)
Lemma loadStoredTasks_hit (w : World) (raw : string) (cached : list Task) :
  read_fault w = false → AsyncStorage w !! "tasks" = Some raw →
  raw ≠ EmptyString → JSON_parse raw = Some cached →
  loadStoredTasks w =
    (Returned tt,
     {| state := with_loading false (with_tasks cached (load_reset (state w)));
        AsyncStorage := AsyncStorage w; network := network w;
        read_fault := false; write_fault := write_fault w;
        trace := trace w ++
          [GetItem "tasks"; SetState (load_reset (state w));
           SetState (with_loading false
                       (with_tasks cached (load_reset (state w))))] |}).
Proof.
  intros Hr Hs Hraw Hp. run. rewrite Hr, Hs.
  destruct raw as [|c raw]; [contradiction|]. simpl. rewrite Hp.
  tidy. reflexivity.
Qed.

(** What the caching screen does at start-up when the cache holds a
    value: [tasks] is the cached list, [loading] and [refreshing] are
    false, [error] and [filter] are untouched, and no request is sent:
    the pending answers of the endpoint are all still there. *)
Lemma loadStoredTasks_cache_hit (w : World) (raw : string)
    (cached : list Task) :
  read_fault w = false → AsyncStorage w !! "tasks" = Some raw →
  raw ≠ EmptyString → JSON_parse raw = Some cached →
  let w' := after loadStoredTasks w in
  tasks (state w') = cached ∧ loading (state w') = false
  ∧ refreshing (state w') = false
  ∧ error (state w') = error (state w) ∧ filter (state w') = filter (state w)
  ∧ requests (did loadStoredTasks w) = 0%nat
  ∧ network w' = network w
  ∧ result loadStoredTasks w = Returned tt.
Proof.
  intros Hr Hs Hraw Hp. unfold did, after, result.
  rewrite (loadStoredTasks_hit w raw cached) by assumption. tidy.
  repeat split.
Qed.

(** A fetch that is answered: the answer becomes [tasks] and is
    handed to [setItem]; the cache holds it unless the write is
    rejected. *)
Lemma fetchTasks_answered (w : World) (data : list Task) :
  answered w = Some data →
  tasks (state (after fetchTasks w)) = data
  ∧ SetItem "tasks" (JSON_stringify data) ∈ did fetchTasks w
  ∧ (write_fault w = false →
     AsyncStorage (after fetchTasks w) !! "tasks"
     = Some (JSON_stringify data)).
Proof.
  intros Ha. unfold did, after. destruct (write_fault w) eqn:Hw.
  - rewrite (fetchTasks_unstored w data) by assumption. tidy.
    split; [reflexivity|]. split; [do 3 right; left|discriminate].
  - rewrite (fetchTasks_stored w data) by assumption. tidy.
    split; [reflexivity|]. split; [do 3 right; left|].
    intros _. apply lookup_insert_eq.
Qed.


End Loading.

Section Transitions.
Context {J : Json}.

Ltac check :=
  cbn; split; [|split]; intros; cbn in *; try congruence; try done.

(** A fetch begins with its reset and then sends its request. *)
Lemma fetchTasks_did_head (w : World) :
  ∃ rest,
    did fetchTasks w = SetState (fetch_reset (state w)) :: Get endpoint :: rest.
Proof.
  unfold did, after.
  destruct (fetch_cases w) as [data Ha Hw|data Ha Hw|Ha].
  - rewrite (fetchTasks_stored w data) by assumption. tidy. now eexists.
  - rewrite (fetchTasks_unstored w data) by assumption. tidy. now eexists.
  - rewrite fetchTasks_rejected by assumption. tidy. now eexists.
Qed.

(** Every transition of every operation, read off its trace. *)
Lemma transitions_checked (a : Action) (w : World) :
  Forall
    (λ p : AppState * AppState,
       (loading p.1 = false → loading p.2 = true → error p.2 = None)
       ∧ (refreshing p.1 = false → refreshing p.2 = true →
          a = Refresh ∧ p.1 = state w ∧ error p.2 = error p.1)
       ∧ (write_fault w = false → error p.1 = None → error p.2 ≠ None →
          answered w = None ∧ error p.2 = Some failed_to_load))
    (transitions (perform a) w).
Proof.
  destruct w as [st store net rf wf tr].
  destruct a; run.
  1: destruct rf; [|destruct (store !! "tasks") as [[|c raw]|]; simpl;
                     [| destruct (JSON_parse (String c raw)); simpl |]].
  all: destruct net as [|[data|] rest]; simpl; try destruct wf; tidy.
  all: repeat (apply Forall_cons; split; [check|]); apply Forall_nil_2.
Qed.

(** C4, amended.  In every operation of the screen and every world,
    for every transition of the state: if it takes [loading] from
    false to true then [error] is null after it; if it takes
    [refreshing] from false to true then it is the first update of
    [handleRefresh], made on the state the refresh found, and it
    leaves [error] as it was; and, in a world where the cache write is
    not rejected, if it takes [error] from null to non-null then the
    request of the operation was rejected and [error] is the failure
    message.  The update that follows the first one of
    [handleRefresh], made before the request is sent, is the reset of
    the fetch: after it [refreshing] and [loading] are true and
    [error] is null. *)
Theorem error_transitions (a : Action) (w : World) :
  (∀ s s', (s, s') ∈ transitions (perform a) w →
     (loading s = false → loading s' = true → error s' = None)
     ∧ (refreshing s = false → refreshing s' = true →
        a = Refresh ∧ s = state w ∧ error s' = error s)
     ∧ (write_fault w = false → error s = None → error s' ≠ None →
        answered w = None ∧ error s' = Some failed_to_load))
  ∧ (∃ rest s2,
       did handleRefresh w =
         SetState (with_refreshing true (state w))
         :: SetState s2 :: Get endpoint :: rest
       ∧ refreshing s2 = true ∧ loading s2 = true ∧ error s2 = None).
Proof.
  split.
  - intros s s' Hin.
    pose proof (transitions_checked a w) as Hall.
    rewrite Forall_forall in Hall. exact (Hall (s, s') Hin).
  - rewrite handleRefresh_did.
    destruct (fetchTasks_did_head (after (setState (with_refreshing true)) w))
      as [rest ->].
    eexists _, _. split; [reflexivity|]. repeat split.
Qed.

End Transitions.

(** ** Render selection *)

(** C1, amended.  For every state: if [loading] is true and [refreshing]
    false the screen is the spinner; otherwise, if [error] is a non-empty
    string the screen is the error screen with that string; otherwise
    ([error] null or the empty string), if [loading] and [refreshing] are
    both true the screen is the skeleton; otherwise the screen is the
    list, showing the tasks kept by the active filter. *)
Theorem render_priority (s : AppState) :
  (loading s = true ∧ refreshing s = false → render s = FULL_LOADING)
  ∧ (¬ (loading s = true ∧ refreshing s = false) →
     ∀ text, error s = Some text → text ≠ EmptyString →
     render s = ERROR text)
  ∧ (¬ (loading s = true ∧ refreshing s = false) →
     error s = None ∨ error s = Some EmptyString →
     loading s = true ∧ refreshing s = true →
     render s = SKELETON (filter s))
  ∧ (¬ (loading s = true ∧ refreshing s = false) →
     error s = None ∨ error s = Some EmptyString →
     ¬ (loading s = true ∧ refreshing s = true) →
     render s = LIST (filter s) (filteredTasks s) (refreshing s)).
Proof.
  unfold render.
  destruct (loading s), (refreshing s), (error s) as [[|c text']|]; simpl.
  all: split; [intros [? ?]; solve [reflexivity | discriminate]|].
  all: split; [intros Hn text Ht Hne; simplify_eq; solve [reflexivity | tauto]|].
  all: split;
    [intros Hn He [? ?]; solve [reflexivity | discriminate
                                | destruct He; discriminate]|].
  all: intros Hn He Hb;
    solve [reflexivity | destruct He; discriminate | exfalso; tauto].
Qed.

(** C1 as stated fails on a state whose [error] is the empty string:
    [loading] is false and [error] is not null, and the screen is the
    list, not the error screen. *)
Lemma render_empty_error :
  let s := {| tasks := [Sample.milk]; loading := false;
              error := Some EmptyString; refreshing := false;
              filter := ALL |} in
  ¬ (loading s = true ∧ refreshing s = false)
  ∧ error s ≠ None
  ∧ render s = LIST ALL [Sample.milk] false
  ∧ ¬ (∃ text, render s = ERROR text).
Proof.
  simpl. split; [intros [? _]; discriminate|].
  split; [discriminate|]. split; [reflexivity|].
  intros [text Ht]. discriminate.
Qed.

(** ** The screen without the cache *)

Section TemplateFacts.
Context {J : Json}.

(** C3.  The start-up code of [src/App.tsx], in a world whose storage
    holds a value that parses: it makes no storage call and sends one
    request all the same; when the endpoint answers, [tasks] is the
    answer, whatever the cached list is; when the request is rejected,
    [tasks] is left alone and [error] is the failure message. *)
Theorem template_loadTasks_requests (w : World) (raw : string)
    (cached : list Task) :
  read_fault w = false → AsyncStorage w !! "tasks" = Some raw →
  raw ≠ EmptyString → JSON_parse raw = Some cached →
  let w' := after Template.loadTasks w in
  requests (did Template.loadTasks w) = 1%nat
  ∧ (∀ key, GetItem key ∉ did Template.loadTasks w)
  ∧ (∀ data, answered w = Some data → tasks (state w') = data)
  ∧ (answered w = None →
     tasks (state w') = tasks (state w)
     ∧ error (state w') = Some failed_to_load).
Proof.
  intros _ _ _ _.
  destruct w as [st store net rf wf tr].
  unfold did, after, Template.loadTasks, Template.fetchTasks, answered.
  run. destruct net as [|[data|] rest]; tidy.
  all: split; [reflexivity|].
  all: split; [intros key Hin; repeat (apply elem_of_cons in Hin as [?|Hin];
                 [discriminate|]); now apply elem_of_nil in Hin|].
  all: split; [intros d ?; now simplify_eq|].
  all: intros ?; now simplify_eq.
Qed.

End TemplateFacts.

(** ** Counterexample, and the theorems at sample worlds *)

(** C4 as stated fails when Retry is pressed on the error screen.  The
    mount effect finds the cache empty and its request is rejected;
    [handleRefresh] then starts from a state with an error, and its
    first transition takes [refreshing] from false to true with [error]
    still not null. *)
Lemma handleRefresh_keeps_error :
  let w := after (loadStoredTasks (J := Sample.json))
             (Sample.boot ∅ [None; None] false false) in
  ∃ s s', (s, s') ∈ transitions (handleRefresh (J := Sample.json)) w
          ∧ refreshing s = false ∧ refreshing s' = true
          ∧ error s' ≠ None.
Proof.
  vm_compute transitions.
  eexists _, _. split; [left|]. split; [reflexivity|].
  split; [reflexivity|]. discriminate.
Qed.

(** Scenario D: under [INCOMPLETE], of a completed and an open task the
    open one is shown. *)
Lemma filteredTasks_partition_witness :
  Sample.milk ∈ filteredTasks
    (with_filter INCOMPLETE
       (Sample.showing [Sample.bills; Sample.milk] ALL None)).
Proof.
  apply (proj1 (proj2 (proj2
    (filteredTasks_partition
       (Sample.showing [Sample.bills; Sample.milk] ALL None))))).
  split; [right; left | reflexivity].
Defined.

(** No task has id 7: the toggle changes nothing. *)
Lemma toggleComplete_twice_witness :
  let w := Sample.later
             (Sample.showing [Sample.milk; Sample.bills] ALL None) [] false in
  state (after (toggleComplete 7) w) = state w
  ∧ result (toggleComplete 7) w = Returned tt.
Proof.
  apply (proj2 (proj2 (toggleComplete_twice 7
    (Sample.later
       (Sample.showing [Sample.milk; Sample.bills] ALL None) [] false)))).
  simpl. intros task Hin.
  apply elem_of_cons in Hin as [->|Hin]; [discriminate|].
  apply elem_of_cons in Hin as [->|Hin]; [discriminate|].
  now apply elem_of_nil in Hin.
Defined.

(** Toggling id 1 flips the first task of the sample list. *)
Lemma toggleComplete_frame_witness :
  let w := Sample.later
             (Sample.showing [Sample.milk; Sample.bills] ALL None) [] false in
  ∃ task', tasks (state (after (toggleComplete 1) w)) !! 0%nat = Some task'
    ∧ id task' = 1 ∧ title task' = "Buy milk"
    ∧ (1 = 1 → completed task' = true)
    ∧ (1 ≠ 1 → task' = Sample.milk).
Proof.
  apply (proj1 (proj2 (toggleComplete_frame 1
    (Sample.later
       (Sample.showing [Sample.milk; Sample.bills] ALL None) [] false)))
    0%nat Sample.milk).
  reflexivity.
Defined.

(** The four screens, each at a sample state. *)
Lemma render_priority_witness :
  render initialState = FULL_LOADING
  ∧ render (Sample.showing [Sample.bills] ALL (Some failed_to_load))
    = ERROR failed_to_load
  ∧ render (with_refreshing true initialState) = SKELETON ALL
  ∧ render (Sample.showing [Sample.bills; Sample.milk] COMPLETED None)
    = LIST COMPLETED [Sample.bills] false.
Proof.
  split; [|split; [|split]].
  - apply (proj1 (render_priority initialState)). split; reflexivity.
  - apply (proj1 (proj2 (render_priority
      (Sample.showing [Sample.bills] ALL (Some failed_to_load))))).
    + simpl. intros [Hl _]. discriminate.
    + reflexivity.
    + discriminate.
  - apply (proj1 (proj2 (proj2 (render_priority
      (with_refreshing true initialState))))).
    + simpl. intros [_ Hr]. discriminate.
    + left. reflexivity.
    + split; reflexivity.
  - apply (proj2 (proj2 (proj2 (render_priority
      (Sample.showing [Sample.bills; Sample.milk] COMPLETED None))))).
    + simpl. intros [Hl _]. discriminate.
    + left. reflexivity.
    + simpl. intros [Hl _]. discriminate.
Defined.

(** The endpoint answers with one task and the write is rejected. *)
Lemma fetchTasks_write_rejected_witness :
  let w := Sample.boot ∅ [Some [Sample.milk]] false true in
  let w' := after (fetchTasks (J := Sample.json)) w in
  tasks (state w') = [Sample.milk] ∧ loading (state w') = false
  ∧ SetItem "tasks" (Sample.to_json [Sample.milk])
      ∈ did (fetchTasks (J := Sample.json)) w
  ∧ AsyncStorage w' = AsyncStorage w
  ∧ result (fetchTasks (J := Sample.json)) w = Returned tt
  ∧ ConsoleError "Error fetching tasks:" StorageError
      ∈ did (fetchTasks (J := Sample.json)) w
  ∧ error (state w') = Some failed_to_load
  ∧ render (state w') = ERROR failed_to_load.
Proof.
  apply (fetchTasks_write_rejected (J := Sample.json)
           (Sample.boot ∅ [Some [Sample.milk]] false true) [Sample.milk]).
  - reflexivity.
  - reflexivity.
Defined.

(** The storage holds one task and the endpoint answers with another:
    the start-up code of [src/App.tsx] sends its request and shows the
    answer, not the stored task. *)
Lemma template_loadTasks_requests_witness :
  let w := Sample.boot {["tasks" := Sample.to_json [Sample.bills]]}
             [Some [Sample.milk]] false false in
  requests (did Template.loadTasks w) = 1%nat
  ∧ tasks (state (after Template.loadTasks w)) = [Sample.milk].
Proof.
  pose proof
    (template_loadTasks_requests (J := Sample.json)
       (Sample.boot {["tasks" := Sample.to_json [Sample.bills]]}
          [Some [Sample.milk]] false false)
       (Sample.to_json [Sample.bills]) [Sample.bills]) as Hrun.
  destruct Hrun as (Hone & _ & Hshown & _).
  - reflexivity.
  - vm_compute. reflexivity.
  - vm_compute. discriminate.
  - vm_compute. reflexivity.
  - split; [exact Hone|]. apply Hshown. reflexivity.
Defined.

(** Retry on the error screen, with the request rejected again: the
    reset of the fetch takes [loading] to true and clears the error, and
    the [catch] sets it again. *)
Lemma error_transitions_witness :
  let s0 := Sample.showing [] ALL (Some failed_to_load) in
  let w := Sample.later s0 [None] false in
  error (fetch_reset (with_refreshing true s0)) = None
  ∧ answered w = None
  ∧ error (fetch_failed (fetch_reset (with_refreshing true s0)))
    = Some failed_to_load.
Proof.
  pose proof
    (proj1 (error_transitions (J := Sample.json) Refresh
       (Sample.later (Sample.showing [] ALL (Some failed_to_load))
          [None] false))) as Hall.
  split.
  - refine (proj1
      (Hall (with_refreshing true
               (Sample.showing [] ALL (Some failed_to_load)))
            (fetch_reset
               (with_refreshing true
                  (Sample.showing [] ALL (Some failed_to_load)))) _) _ _).
    + vm_compute. right. left.
    + reflexivity.
    + reflexivity.
  - refine (proj2 (proj2
      (Hall (fetch_reset
               (with_refreshing true
                  (Sample.showing [] ALL (Some failed_to_load))))
            (fetch_failed
               (fetch_reset
                  (with_refreshing true
                     (Sample.showing [] ALL (Some failed_to_load))))) _))
      _ _ _).
    + vm_compute. right. right. left.
    + reflexivity.
    + reflexivity.
    + discriminate.
Defined.

(** Scenario C: the request of a refresh is rejected. *)
Lemma handleRefresh_spec_witness :
  let w := Sample.later (Sample.showing [Sample.bills] ALL None)
             [None] false in
  let w' := after (handleRefresh (J := Sample.json)) w in
  tasks (state w') = [Sample.bills]
  ∧ error (state w') = Some failed_to_load
  ∧ loading (state w') = false.
Proof.
  apply (proj2 (proj2 (proj2 (proj2 (proj2
    (handleRefresh_spec (J := Sample.json)
       (Sample.later (Sample.showing [Sample.bills] ALL None)
          [None] false))))))).
  reflexivity.
Defined.


(** Scenario B: the cache holds one task; it is shown at once and no
    request is sent. *)
Example loadStoredTasks_cache_hit_sample :
  let w := Sample.boot {["tasks" := Sample.to_json [Sample.bills]]}
             [Some [Sample.milk]] false false in
  render (state (after (loadStoredTasks (J := Sample.json)) w))
  = LIST ALL [Sample.bills] false
  ∧ requests (did (loadStoredTasks (J := Sample.json)) w) = 0%nat.
Proof. vm_compute. split; reflexivity. Qed.

(** The write of a fetch that went through is what a later start-up
    reads back, when the codec reads what it wrote. *)
Example loadStoredTasks_after_fetch_sample :
  let w := after (fetchTasks (J := Sample.json))
             (Sample.boot ∅ [Some [Sample.milk; Sample.bills]] false false) in
  tasks (state (after (loadStoredTasks (J := Sample.json))
                  (Sample.boot (AsyncStorage w) [] false false)))
  = [Sample.milk; Sample.bills].
Proof. vm_compute. reflexivity. Qed.

(** * Further properties *)

(** A case for each way an operation can go, on a world taken apart. *)
Ltac by_cases w a :=
  destruct w as [st store net rf wf tr];
  destruct a; run;
  [ destruct rf;
    [|destruct (store !! "tasks") as [[|c raw]|] eqn:Hstore; simpl;
      [| destruct (JSON_parse (String c raw)) eqn:Hparse; simpl |]]
  | .. ];
  (destruct net as [|[data|] rest]; simpl; try destruct wf; tidy).

(** Membership in a list written out. *)
Ltac pick := repeat first [apply list_elem_of_here | apply list_elem_of_further].
Ltac absent H :=
  repeat (apply elem_of_cons in H as [H|H]; [discriminate H|]);
  apply elem_of_nil in H; destruct H.

Section Kept.
Context {J : Json}.

(** X1.  A run of [fetchTasks] whose request is rejected: [tasks],
    [refreshing] and [filter] are those of before, [loading] is false
    and [error] is the failure message; the failure is logged under the
    label of the fetch; [setItem] is never called and the storage is as
    before; the call returns without throwing. *)
Theorem fetchTasks_failure (w : World) :
  answered w = None →
  let w' := after fetchTasks w in
  tasks (state w') = tasks (state w)
  ∧ refreshing (state w') = refreshing (state w)
  ∧ filter (state w') = filter (state w)
  ∧ loading (state w') = false
  ∧ error (state w') = Some failed_to_load
  ∧ ConsoleError "Error fetching tasks:" NetworkError ∈ did fetchTasks w
  ∧ (∀ key value, SetItem key value ∉ did fetchTasks w)
  ∧ AsyncStorage w' = AsyncStorage w
  ∧ result fetchTasks w = Returned tt.
Proof.
  intros Ha. unfold did, after, result.
  rewrite fetchTasks_rejected by assumption. tidy.
  do 5 (split; [reflexivity|]).
  split; [pick|].
  split; [intros key value Hin; absent Hin|].
  split; reflexivity.
Qed.

(** X2.  Every run of [fetchTasks], whatever the endpoint and the
    storage do: it returns without throwing; it sends exactly one
    request, to the endpoint of the source, and uses up exactly one
    answer; it leaves [loading] false, and [refreshing] and [filter] as
    they were. *)
Theorem fetchTasks_one_request (w : World) :
  let w' := after fetchTasks w in
  result fetchTasks w = Returned tt
  ∧ requests (did fetchTasks w) = 1%nat
  ∧ (∀ url, Get url ∈ did fetchTasks w → url = endpoint)
  ∧ network w' = tail (network w)
  ∧ loading (state w') = false
  ∧ refreshing (state w') = refreshing (state w)
  ∧ filter (state w') = filter (state w).
Proof.
  simpl. split; [apply fetchTasks_returns|].
  split; [apply fetchTasks_requests|].
  unfold did, after.
  destruct (fetch_cases w) as [data Ha Hw|data Ha Hw|Ha].
  - rewrite (fetchTasks_stored w data) by assumption. tidy.
    split; [|repeat split]. intros url Hin.
    repeat (apply elem_of_cons in Hin as [Hin|Hin]; [now simplify_eq|]).
    now apply elem_of_nil in Hin.
  - rewrite (fetchTasks_unstored w data) by assumption. tidy.
    split; [|repeat split]. intros url Hin.
    repeat (apply elem_of_cons in Hin as [Hin|Hin]; [now simplify_eq|]).
    now apply elem_of_nil in Hin.
  - rewrite fetchTasks_rejected by assumption. tidy.
    split; [|repeat split]. intros url Hin.
    repeat (apply elem_of_cons in Hin as [Hin|Hin]; [now simplify_eq|]).
    now apply elem_of_nil in Hin.
Qed.

(** X3.  In every operation and every world: [setItem] is called on
    the key of the task list only, so what the storage holds under any
    other key is what it held before; and when the request of the
    operation is rejected, or the write is, the whole storage is as
    before. *)
Theorem storage_written_under_tasks_only (a : Action) (w : World) :
  (∀ key value, SetItem key value ∈ did (perform a) w → key = "tasks")
  ∧ (∀ key, key ≠ "tasks" →
       AsyncStorage (after (perform a) w) !! key = AsyncStorage w !! key)
  ∧ (answered w = None ∨ write_fault w = true →
     AsyncStorage (after (perform a) w) = AsyncStorage w).
Proof.
  by_cases w a.
  all: split;
    [intros key value Hin;
     repeat (apply elem_of_cons in Hin as [Hin|Hin]; [now simplify_eq|]);
     now apply elem_of_nil in Hin|].
  all: split;
    [intros key Hne; solve [reflexivity | now apply lookup_insert_ne]|].
  all: intros [Hno|Hno]; solve [reflexivity | discriminate Hno].
Qed.

(** X4.  [filter] is changed by the filter buttons and by nothing else:
    every state handed to React by the mount effect, a refresh, a fetch
    or a toggle has the [filter] of the state the operation started
    in, and the state handed over by a filter button has the filter of
    that button. *)
Theorem filter_kept (a : Action) (w : World) :
  Forall
    (λ s, filter s = match a with Press f => f | _ => filter (state w) end)
    (states (did (perform a) w)).
Proof.
  by_cases w a.
  all: repeat (apply Forall_cons; split; [reflexivity|]).
  all: apply Forall_nil_2.
Qed.

(** Started in a state where [error] is null or the failure message,
    and null if [loading] is true, every operation hands to React only
    states of that kind. *)
Lemma coherent_kept (a : Action) (w : World) :
  coherent (state w) → Forall coherent (states (did (perform a) w)).
Proof.
  unfold coherent. intros [Hk Hl].
  by_cases w a.
  all: repeat (apply Forall_cons; split;
               [cbn; split; [tauto|intros; congruence || tauto]|]).
  all: try apply Forall_nil_2.
Qed.

Lemma reachable_coherent (s : AppState) : reachable s → coherent s.
Proof.
  induction 1 as [|a w s _ IH Hin].
  - split; [now left | reflexivity].
  - pose proof (coherent_kept a w IH) as Hall.
    rewrite Forall_forall in Hall. now apply Hall.
Qed.

(** X5.  In every state handed to React from start-up on, whatever
    operations ran and whatever the endpoint and the storage did:
    [error] is null or the failure message, never another string; it is
    null while [loading] is true; and the screen is the error screen,
    with that message, exactly when [error] is not null. *)
Theorem reachable_error_screen (s : AppState) :
  reachable s →
  (error s = None ∨ error s = Some failed_to_load)
  ∧ (loading s = true → error s = None)
  ∧ (error s ≠ None ↔ render s = ERROR failed_to_load).
Proof.
  intros [Hk Hl]%reachable_coherent.
  split; [exact Hk|]. split; [exact Hl|].
  unfold render. destruct (loading s) eqn:El.
  - rewrite (Hl eq_refl). simpl.
    split; [congruence|]. destruct (refreshing s); discriminate.
  - simpl. destruct Hk as [-> | ->]; simpl.
    + split; [congruence | discriminate].
    + split; [reflexivity | discriminate].
Qed.

End Kept.

Section Composed.
Context {J : Json}.

(** An answered fetch leaves the same state from two worlds that differ
    in [tasks] only. *)
Lemma fetchTasks_forgets (w w' : World) (data l : list Task) :
  answered w = Some data → answered w' = Some data →
  write_fault w' = write_fault w →
  state w' = with_tasks l (state w) →
  state (after fetchTasks w') = state (after fetchTasks w)
  ∧ tasks (state (after fetchTasks w)) = data.
Proof.
  intros Ha Ha' Hw Hs. unfold after.
  destruct (write_fault w) eqn:Hf.
  - rewrite (fetchTasks_unstored w data), (fetchTasks_unstored w' data)
      by assumption.
    simpl. rewrite Hs. split; reflexivity.
  - rewrite (fetchTasks_stored w data), (fetchTasks_stored w' data)
      by assumption.
    simpl. rewrite Hs. split; reflexivity.
Qed.

Lemma handleRefresh_state (w : World) :
  state (after handleRefresh w)
  = with_refreshing false
      (state (after fetchTasks (after (setState (with_refreshing true)) w))).
Proof. unfold after at 1. now rewrite handleRefresh_run. Qed.

(** X6.  Last fetch wins: when the endpoint answers, a fetch or a
    refresh that follows a completion toggle leaves the state it would
    have left without the toggle, with the answer as [tasks]. *)
Theorem fetch_discards_toggle (taskId : Z) (w : World) (data : list Task) :
  answered w = Some data →
  state (after (toggleComplete taskId ;; fetchTasks) w)
  = state (after fetchTasks w)
  ∧ state (after (toggleComplete taskId ;; handleRefresh) w)
    = state (after handleRefresh w)
  ∧ tasks (state (after (toggleComplete taskId ;; handleRefresh) w)) = data.
Proof.
  intros Ha.
  assert (∀ m : Async unit,
            after (toggleComplete taskId ;; m) w
            = after m (after (toggleComplete taskId) w))
    as Hseq by reflexivity.
  rewrite !Hseq, !handleRefresh_state.
  destruct (fetchTasks_forgets w (after (toggleComplete taskId) w) data
              (toggle taskId (tasks (state w))))
    as [E1 _]; [assumption | exact Ha | reflexivity | reflexivity |].
  destruct (fetchTasks_forgets
              (after (setState (with_refreshing true)) w)
              (after (setState (with_refreshing true))
                 (after (toggleComplete taskId) w))
              data (toggle taskId (tasks (state w))))
    as [E2 E3]; [exact Ha | exact Ha | reflexivity | reflexivity |].
  split; [exact E1|]. rewrite E2. split; [reflexivity|]. exact E3.
Qed.

(** X7.  What a fetch stores, a later start-up shows.  When the
    endpoint answers, the write goes through, and the codec reads back
    the non-empty text it wrote for the answer, then [loadStoredTasks]
    started in any world with the storage the fetch left, and a read
    that is not rejected, ends with the answer as [tasks], sends no
    request and leaves the pending answers alone. *)
Theorem cache_round_trip (w : World) (data : list Task) :
  answered w = Some data → write_fault w = false →
  JSON_parse (JSON_stringify data) = Some data →
  JSON_stringify data ≠ EmptyString →
  ∀ w2, AsyncStorage w2 = AsyncStorage (after fetchTasks w) →
        read_fault w2 = false →
        tasks (state (after loadStoredTasks w2)) = data
        ∧ requests (did loadStoredTasks w2) = 0%nat
        ∧ network (after loadStoredTasks w2) = network w2.
Proof.
  intros Ha Hw Hp Hne w2 Hstore Hr.
  assert (AsyncStorage w2 !! "tasks" = Some (JSON_stringify data)) as Hheld.
  { rewrite Hstore. unfold after.
    rewrite (fetchTasks_stored w data) by assumption. simpl.
    apply lookup_insert_eq. }
  unfold did, after.
  rewrite (loadStoredTasks_hit w2 (JSON_stringify data) data) by assumption.
  tidy. repeat split.
Qed.

(** X8.  A refresh never shows the spinner: no state it hands to React
    renders as the full-screen loader; and while its request is out the
    screen is the skeleton under the filter bar. *)
Theorem refresh_shows_skeleton (w : World) :
  Forall (λ s, render s ≠ FULL_LOADING) (states (did handleRefresh w))
  ∧ ∃ s2 rest,
      did handleRefresh w =
        SetState (with_refreshing true (state w))
        :: SetState s2 :: Get endpoint :: rest
      ∧ render s2 = SKELETON (filter (state w)).
Proof.
  destruct w as [st store net rf wf tr]. run.
  destruct net as [|[d|] rest]; simpl; try destruct wf; tidy.
  all: split; [|eexists _, _; split; reflexivity].
  all: repeat (apply Forall_cons; split;
               [unfold render; cbn;
                destruct (loading st), (truthy (error st)); discriminate|]).
  all: apply Forall_nil_2.
Qed.

(** X9.  Retry recovers: when the endpoint answers and the write goes
    through, a refresh ends on the list screen, showing the answer as
    kept by the filter in force, whatever the state before it (the
    error screen included); [error] is null and the pull indicator is
    off. *)
Theorem refresh_recovers (w : World) (data : list Task) :
  answered w = Some data → write_fault w = false →
  let s' := state (after handleRefresh w) in
  render s' = LIST (filter (state w))
                (List.filter (keeps (filter (state w))) data) false
  ∧ error s' = None.
Proof.
  intros Ha Hw. destruct w as [st store net rf wf tr]. run.
  destruct net as [|[d|] rest]; simplify_eq. simpl. split; reflexivity.
Qed.

(** X10.  Start-up settles.  [loadStoredTasks] run from the initial
    state, in a world whose stored text (if any) is JSON: it returns
    without throwing; [loading] and [refreshing] are false at the end;
    and the screen is then either the list under [ALL], with the pull
    indicator off, or the error screen with the failure message. *)
Theorem startup_settles (w : World) :
  state w = initialState → readable w →
  let s' := state (after loadStoredTasks w) in
  result loadStoredTasks w = Returned tt
  ∧ loading s' = false ∧ refreshing s' = false
  ∧ ((∃ l, render s' = LIST ALL l false)
     ∨ render s' = ERROR failed_to_load).
Proof.
  intros Hs Hread. unfold readable in Hread.
  destruct w as [st store net rf wf tr]. simpl in Hs. subst st. run.
  destruct rf;
    [|destruct (store !! "tasks") as [[|c raw]|] eqn:Hstore; simpl;
      [| destruct (JSON_parse (String c raw)) eqn:Hparse; simpl;
         [|destruct (Hread _ eq_refl) as [?|[? ?]]; congruence] |]].
  all: destruct net as [|[data|] rest]; simpl; try destruct wf; simpl.
  all: do 3 (split; [reflexivity|]).
  all: solve [right; reflexivity | left; eexists; reflexivity].
Qed.

(** X11.  A rejected read is logged, not shown.  When [getItem]
    rejects, the mount effect logs the failure under its storage label
    and goes on to fetch; its first update is the reset of the fetch,
    made on the state it started in (the update that clears [loading]
    and [refreshing] is skipped, so [refreshing] is never touched); and
    when the endpoint answers and the write goes through, [error] is
    null at the end and [tasks] is the answer. *)
Theorem read_fault_logged (w : World) :
  read_fault w = true →
  let w' := after loadStoredTasks w in
  ConsoleError "Failed to load tasks from storage" StorageError
    ∈ did loadStoredTasks w
  ∧ head (states (did loadStoredTasks w)) = Some (fetch_reset (state w))
  ∧ refreshing (state w') = refreshing (state w)
  ∧ (∀ data, answered w = Some data → write_fault w = false →
       error (state w') = None ∧ tasks (state w') = data).
Proof.
  intros Hr. destruct w as [st store net rf wf tr]. simpl in Hr. subst rf.
  run. destruct net as [|[d|] rest]; simpl; try destruct wf; tidy.
  all: split; [pick|].
  all: do 2 (split; [reflexivity|]).
  all: intros data Ha Hw; simplify_eq; split; reflexivity.
Qed.

End Composed.

(** ** Toggles, cards and buttons *)

Lemma flip_id (task : Task) : id (flip task) = id task.
Proof. reflexivity. Qed.

Lemma toggle_comm (a b : Z) (l : list Task) :
  toggle a (toggle b l) = toggle b (toggle a l).
Proof.
  unfold toggle. rewrite !List.map_map. apply List.map_ext. intros task.
  destruct (id task =? b) eqn:Eb, (id task =? a) eqn:Ea; simpl;
    rewrite ?Ea, ?Eb; reflexivity.
Qed.

Lemma toggle_elem_other (taskId : Z) (l : list Task) (task : Task) :
  id task ≠ taskId → task ∈ toggle taskId l ↔ task ∈ l.
Proof.
  intros Hne. unfold toggle. rewrite !list_elem_of_In, List.in_map_iff.
  split.
  - intros (t & Ht & Hin).
    destruct (Z.eqb_spec (id t) taskId) as [Heq|_]; subst; [|assumption].
    now destruct Hne.
  - intros Hin. exists task. split; [|assumption].
    apply Z.eqb_neq in Hne. now rewrite Hne.
Qed.

Lemma toggle_elem_same (taskId : Z) (l : list Task) (task : Task) :
  id task = taskId → task ∈ toggle taskId l ↔ flip task ∈ l.
Proof.
  intros Heq. unfold toggle. rewrite !list_elem_of_In, List.in_map_iff.
  split.
  - intros (t & Ht & Hin).
    destruct (Z.eqb_spec (id t) taskId) as [_|Hne]; subst.
    + now rewrite flip_flip.
    + now destruct Hne.
  - intros Hin. exists (flip task). split; [|assumption].
    rewrite flip_id. apply Z.eqb_eq in Heq. rewrite Heq. apply flip_flip.
Qed.

(** X12.  Toggles commute: two completion toggles leave the same state
    in either order, whatever their ids. *)
Theorem toggleComplete_commute (a b : Z) (w : World) :
  state (after (toggleComplete a ;; toggleComplete b) w)
  = state (after (toggleComplete b ;; toggleComplete a) w).
Proof.
  unfold after, toggleComplete, bind, setState, with_tasks; simpl.
  now rewrite toggle_comm.
Qed.

(** X13.  A toggle moves the tasks of its id across the two filters and
    no other task: after [toggleComplete], a task with another id is
    shown under a filter exactly when it was before; and a task with
    the given id is shown under [COMPLETED] exactly when its flipped
    form was shown under [INCOMPLETE] before, and the other way round. *)
Theorem toggleComplete_moves (taskId : Z) (w : World) (task : Task) :
  let s := state w in
  let s' := state (after (toggleComplete taskId) w) in
  (id task ≠ taskId →
   ∀ f, task ∈ filteredTasks (with_filter f s')
        ↔ task ∈ filteredTasks (with_filter f s))
  ∧ (id task = taskId →
     (task ∈ filteredTasks (with_filter COMPLETED s')
      ↔ flip task ∈ filteredTasks (with_filter INCOMPLETE s))
     ∧ (task ∈ filteredTasks (with_filter INCOMPLETE s')
        ↔ flip task ∈ filteredTasks (with_filter COMPLETED s))).
Proof.
  simpl. unfold filteredTasks, after, toggleComplete, setState; simpl.
  split.
  - intros Hne f. rewrite !filter_keeps_elem.
    now rewrite toggle_elem_other.
  - intros Heq. rewrite !filter_keeps_elem.
    rewrite !toggle_elem_same by assumption. simpl.
    rewrite negb_involutive. tauto.
Qed.

(** X14.  The button of a card acts on the task the card shows, and
    says so: its visible caption is its accessibility label; the
    caption offers unmarking, the icon is the checked box and the card
    has the completed styles exactly when the task is completed; and
    pressing it, that is [toggleComplete] on the id it holds, puts the
    flipped task in the list, whose card has the title of before and
    the other caption. *)
Theorem renderItem_button (item : Task) (w : World) :
  caption (renderItem item) = accessibilityLabel (renderItem item)
  ∧ (caption (renderItem item) = "Unmark as complete"
     ↔ completed item = true)
  ∧ (icon (renderItem item) = "checkbox-outline" ↔ completed item = true)
  ∧ completedCard (renderItem item) = completed item
  ∧ completedText (renderItem item) = completed item
  ∧ card_title (renderItem (flip item)) = card_title (renderItem item)
  ∧ caption (renderItem (flip item)) ≠ caption (renderItem item)
  ∧ (item ∈ tasks (state w) →
     flip item
       ∈ tasks (state (after (toggleComplete (pressed (renderItem item))) w))).
Proof.
  split; [reflexivity|].
  split; [destruct item as [i t []]; simpl; split; congruence|].
  split; [destruct item as [i t []]; simpl; split; congruence|].
  do 3 (split; [reflexivity|]).
  split; [destruct item as [i t []]; simpl; discriminate|].
  intros Hin. unfold after, toggleComplete, setState; simpl.
  apply toggle_elem_same; [reflexivity|]. now rewrite flip_flip.
Qed.


(** X16.  The filter bar has three buttons, for [ALL], [COMPLETED] and
    [INCOMPLETE] in that order; the highlighted one is the button of
    the filter in force and no other; after a button is pressed it is
    the highlighted one. *)
Theorem filterBar_highlight (f : FILTER) (w : World) :
  List.map snd (filterBar (state w)) = [ALL; COMPLETED; INCOMPLETE]
  ∧ (∀ b, b ∈ filterBar (state w) →
       (b.1.2 = Contained ↔ b.2 = filter (state w)))
  ∧ (∀ b, b ∈ filterBar (state (after (onPress f) w)) →
       (b.1.2 = Contained ↔ b.2 = f)).
Proof.
  split; [reflexivity|].
  assert (∀ s b, b ∈ filterBar s → (b.1.2 = Contained ↔ b.2 = filter s))
    as Hbar.
  { intros s b Hin. unfold filterBar in Hin. simpl in Hin.
    repeat (apply elem_of_cons in Hin as [->|Hin];
            [simpl; destruct (filter s); simpl; split; congruence|]).
    now apply elem_of_nil in Hin. }
  split; [apply Hbar|]. intros b Hin. now apply Hbar in Hin.
Qed.

(** ** The screen without the cache, again *)

Section TemplateMore.
Context {J : Json}.

(** X17.  The start-up code of [src/App.tsx] never reaches its [catch]:
    in every world it returns without throwing, logs under the label
    [tasks] after its fetch and never logs a storage failure; it leaves
    [loading] false and [refreshing] false; it makes no storage call,
    and the storage is as before. *)
Theorem template_loadTasks_settles (w : World) :
  let w' := after Template.loadTasks w in
  result Template.loadTasks w = Returned tt
  ∧ last (did Template.loadTasks w) = Some (ConsoleLog "tasks")
  ∧ (∀ err, ConsoleError "Failed to load tasks from storage" err
            ∉ did Template.loadTasks w)
  ∧ loading (state w') = false ∧ refreshing (state w') = false
  ∧ (∀ key value, SetItem key value ∉ did Template.loadTasks w)
  ∧ AsyncStorage w' = AsyncStorage w.
Proof.
  destruct w as [st store net rf wf tr].
  unfold did, after, result, Template.loadTasks, Template.fetchTasks.
  run. destruct net as [|[data|] rest]; tidy.
  all: do 2 (split; [reflexivity|]).
  all: split; [intros err Hin; absent Hin|].
  all: do 2 (split; [reflexivity|]).
  all: split; [intros key value Hin; absent Hin|reflexivity].
Qed.

(** X18.  The two fetches agree where the cache plays no part: when the
    write is not rejected, or the request is, [fetchTasks] of the
    caching screen hands to React the states that [fetchTasks] of
    [src/App.tsx] hands over, in the same order, and ends in the same
    state; both send one request. *)
Theorem fetchTasks_agree (w : World) :
  write_fault w = false ∨ answered w = None →
  states (did fetchTasks w) = states (did Template.fetchTasks w)
  ∧ state (after fetchTasks w) = state (after Template.fetchTasks w)
  ∧ requests (did Template.fetchTasks w) = 1%nat
  ∧ network (after fetchTasks w) = network (after Template.fetchTasks w).
Proof.
  intros Hok. destruct w as [st store net rf wf tr].
  unfold did, after, Template.fetchTasks. run.
  destruct net as [|[data|] rest]; simpl;
    destruct Hok as [Hok|Hok]; simplify_eq; try destruct wf; tidy.
  all: repeat split.
Qed.

End TemplateMore.

Section Views.
Context {J : Json}.

(** X19.  A refresh persists too: when the endpoint answers and the
    write goes through, the cache holds the serialised answer after
    [handleRefresh], whatever it held before, and the screen state has
    that answer as [tasks]. *)
Theorem refresh_overwrites_cache (w : World) (data : list Task) :
  answered w = Some data → write_fault w = false →
  let w' := after handleRefresh w in
  AsyncStorage w' !! "tasks" = Some (JSON_stringify data)
  ∧ SetItem "tasks" (JSON_stringify data) ∈ did handleRefresh w
  ∧ tasks (state w') = data.
Proof.
  intros Ha Hw. simpl. rewrite handleRefresh_did, handleRefresh_state.
  unfold after at 1. rewrite handleRefresh_run. cbn [snd].
  set (w1 := after (setState (with_refreshing true)) w).
  assert (answered w1 = Some data) as Ha1 by exact Ha.
  destruct (fetchTasks_answered w1 data Ha1) as (Ht & Hin & Hheld).
  split; [apply (Hheld Hw)|].
  split; [|exact Ht].
  apply elem_of_cons. right. apply elem_of_app. now left.
Qed.

(** X20.  A filter button changes what the list shows and nothing else
    on screen: pressed on the spinner or on the error screen it leaves
    that screen as it is; pressed on the skeleton or on the list it
    highlights its own filter, and the list then shows the tasks kept
    by that filter, with the pull indicator as before. *)
Theorem onPress_view (f : FILTER) (w : World) :
  let s := state w in
  let s' := state (after (onPress f) w) in
  (render s = FULL_LOADING → render s' = FULL_LOADING)
  ∧ (∀ text, render s = ERROR text → render s' = ERROR text)
  ∧ (∀ g, render s = SKELETON g → render s' = SKELETON f)
  ∧ (∀ g l p, render s = LIST g l p →
       render s' = LIST f (List.filter (keeps f) (tasks s)) p).
Proof.
  simpl. unfold after, onPress, setState, render, filteredTasks; simpl.
  destruct (loading (state w)), (refreshing (state w)),
    (truthy (error (state w))); simpl.
  all: split; [intros E; solve [reflexivity | discriminate E]|].
  all: split; [intros t E; solve [exact E | discriminate E]|].
  all: split; [intros g E; solve [reflexivity | discriminate E]|].
  all: intros g l p E; solve [discriminate E | now simplify_eq].
Qed.

End Views.

(** A refresh replaces what the cache held. *)
Lemma refresh_overwrites_cache_witness :
  let w := Sample.later (Sample.showing [Sample.bills] ALL None)
             [Some [Sample.milk]] false in
  AsyncStorage (after (handleRefresh (J := Sample.json)) w) !! "tasks"
  = Some (Sample.to_json [Sample.milk]).
Proof.
  apply (proj1 (refresh_overwrites_cache (J := Sample.json)
    (Sample.later (Sample.showing [Sample.bills] ALL None)
       [Some [Sample.milk]] false)
    [Sample.milk] eq_refl eq_refl)).
Defined.

(** The second button pressed on the list of the two sample tasks. *)
Lemma onPress_view_witness :
  render (state (after (onPress COMPLETED)
            (Sample.later
               (Sample.showing [Sample.milk; Sample.bills] ALL None)
               [] false)))
  = LIST COMPLETED [Sample.bills] false.
Proof.
  apply (proj2 (proj2 (proj2 (onPress_view COMPLETED
    (Sample.later (Sample.showing [Sample.milk; Sample.bills] ALL None)
       [] false))))
    ALL [Sample.milk; Sample.bills] false).
  reflexivity.
Defined.

(** ** The further properties at sample worlds *)

(** The request of a fetch from the initial state is rejected. *)
Lemma fetchTasks_failure_witness :
  let w := Sample.boot ∅ [None] false false in
  let w' := after (fetchTasks (J := Sample.json)) w in
  tasks (state w') = [] ∧ error (state w') = Some failed_to_load
  ∧ AsyncStorage w' = ∅.
Proof.
  destruct (fetchTasks_failure (J := Sample.json)
              (Sample.boot ∅ [None] false false))
    as (Ht & _ & _ & _ & He & _ & _ & Hs & _).
  - reflexivity.
  - split; [exact Ht|]. split; [exact He | exact Hs].
Defined.

(** The one request of an answered fetch goes to the endpoint. *)
Lemma fetchTasks_one_request_witness :
  let w := Sample.boot ∅ [Some [Sample.milk]] false false in
  requests (did (fetchTasks (J := Sample.json)) w) = 1%nat
  ∧ "https://jsonplaceholder.typicode.com/todos" = endpoint.
Proof.
  destruct (fetchTasks_one_request (J := Sample.json)
              (Sample.boot ∅ [Some [Sample.milk]] false false))
    as (_ & Hone & Hurl & _).
  split; [exact Hone|]. apply Hurl. vm_compute. pick.
Defined.

(** A refresh leaves a stored setting alone. *)
Lemma storage_written_under_tasks_only_witness :
  AsyncStorage
    (after (perform (J := Sample.json) Refresh)
       (Sample.boot {["theme" := "dark"]} [Some [Sample.milk]] false false))
    !! "theme"
  = Some "dark".
Proof.
  rewrite (proj1 (proj2
    (storage_written_under_tasks_only (J := Sample.json) Refresh
       (Sample.boot {["theme" := "dark"]} [Some [Sample.milk]] false false)))
    "theme").
  - vm_compute. reflexivity.
  - discriminate.
Defined.

(** The state a failed start-up ends in shows the error screen. *)
Lemma reachable_error_screen_witness :
  render (fetch_failed (fetch_reset (load_reset initialState)))
  = ERROR failed_to_load.
Proof.
  assert (reachable (J := Sample.json)
            (fetch_failed (fetch_reset (load_reset initialState))))
    as Hreach.
  { apply (reach_update Mount (Sample.boot ∅ [None] false false)).
    - apply reach_start.
    - vm_compute. pick. }
  apply (proj1 (proj2 (proj2
    (reachable_error_screen (J := Sample.json) _ Hreach)))).
  discriminate.
Defined.

(** A toggle of the first task, then a refresh that is answered. *)
Lemma fetch_discards_toggle_witness :
  let w := Sample.later
             (Sample.showing [Sample.milk; Sample.bills] ALL None)
             [Some [Sample.milk]] false in
  tasks (state (after (toggleComplete 1 ;; handleRefresh (J := Sample.json)) w))
  = [Sample.milk].
Proof.
  apply (proj2 (proj2
    (fetch_discards_toggle (J := Sample.json) 1
       (Sample.later
          (Sample.showing [Sample.milk; Sample.bills] ALL None)
          [Some [Sample.milk]] false)
       [Sample.milk] eq_refl))).
Defined.

(** A fetch stores two tasks; the next start-up shows them. *)
Lemma cache_round_trip_witness :
  let w := Sample.boot ∅ [Some [Sample.milk; Sample.bills]] false false in
  let w2 := Sample.boot (AsyncStorage (after (fetchTasks (J := Sample.json)) w))
              [] false false in
  tasks (state (after (loadStoredTasks (J := Sample.json)) w2))
  = [Sample.milk; Sample.bills]
  ∧ requests (did (loadStoredTasks (J := Sample.json)) w2) = 0%nat.
Proof.
  destruct (cache_round_trip (J := Sample.json)
              (Sample.boot ∅ [Some [Sample.milk; Sample.bills]] false false)
              [Sample.milk; Sample.bills])
    with (w2 := Sample.boot
                  (AsyncStorage
                     (after (fetchTasks (J := Sample.json))
                        (Sample.boot ∅ [Some [Sample.milk; Sample.bills]]
                           false false)))
                  [] false false)
    as (Ht & Hn & _).
  - reflexivity.
  - reflexivity.
  - vm_compute. reflexivity.
  - vm_compute. discriminate.
  - reflexivity.
  - reflexivity.
  - split; [exact Ht | exact Hn].
Defined.

(** A refresh whose request is rejected, from the list screen. *)
Lemma refresh_shows_skeleton_witness :
  Forall (λ s, render s ≠ FULL_LOADING)
    (states (did (handleRefresh (J := Sample.json))
       (Sample.later (Sample.showing [Sample.bills] ALL None) [None] false))).
Proof.
  exact (proj1 (refresh_shows_skeleton (J := Sample.json)
    (Sample.later (Sample.showing [Sample.bills] ALL None) [None] false))).
Defined.

(** Retry on the error screen, answered. *)
Lemma refresh_recovers_witness :
  render (state (after (handleRefresh (J := Sample.json))
            (Sample.later
               (Sample.showing [] INCOMPLETE (Some failed_to_load))
               [Some [Sample.milk; Sample.bills]] false)))
  = LIST INCOMPLETE [Sample.milk] false.
Proof.
  apply (proj1 (refresh_recovers (J := Sample.json)
    (Sample.later (Sample.showing [] INCOMPLETE (Some failed_to_load))
       [Some [Sample.milk; Sample.bills]] false)
    [Sample.milk; Sample.bills] eq_refl eq_refl)).
Defined.

(** Start-up with one task in the cache. *)
Lemma startup_settles_witness :
  let w := Sample.boot {["tasks" := Sample.to_json [Sample.bills]]}
             [] false false in
  loading (state (after (loadStoredTasks (J := Sample.json)) w)) = false
  ∧ refreshing (state (after (loadStoredTasks (J := Sample.json)) w)) = false.
Proof.
  destruct (startup_settles (J := Sample.json)
    (Sample.boot {["tasks" := Sample.to_json [Sample.bills]]} [] false false))
    as (_ & Hl & Hr & _).
  - reflexivity.
  - intros raw Hraw. right. vm_compute in Hraw.
    injection Hraw as <-. vm_compute. eexists. reflexivity.
  - split; [exact Hl | exact Hr].
Defined.

(** The read is rejected, the endpoint answers. *)
Lemma read_fault_logged_witness :
  let w := Sample.boot ∅ [Some [Sample.milk]] true false in
  error (state (after (loadStoredTasks (J := Sample.json)) w)) = None
  ∧ tasks (state (after (loadStoredTasks (J := Sample.json)) w))
    = [Sample.milk].
Proof.
  apply (proj2 (proj2 (proj2
    (read_fault_logged (J := Sample.json)
       (Sample.boot ∅ [Some [Sample.milk]] true false) eq_refl)))
    [Sample.milk]); reflexivity.
Defined.

(** After a toggle of id 2 the second sample task is shown under
    [INCOMPLETE], since it was shown under [COMPLETED]. *)
Lemma toggleComplete_moves_witness :
  let w := Sample.later
             (Sample.showing [Sample.milk; Sample.bills] ALL None) [] false in
  flip Sample.bills
  ∈ filteredTasks
      (with_filter INCOMPLETE (state (after (toggleComplete 2) w))).
Proof.
  apply (proj2 (proj2 (toggleComplete_moves 2
    (Sample.later (Sample.showing [Sample.milk; Sample.bills] ALL None)
       [] false)
    (flip Sample.bills)) eq_refl)).
  vm_compute. pick.
Defined.

(** The button of the first sample card. *)
Lemma renderItem_button_witness :
  let w := Sample.later
             (Sample.showing [Sample.milk; Sample.bills] ALL None) [] false in
  flip Sample.milk ∈ tasks (state (after (toggleComplete 1) w)).
Proof.
  apply (proj2 (proj2 (proj2 (proj2 (proj2 (proj2 (proj2
    (renderItem_button Sample.milk
       (Sample.later (Sample.showing [Sample.milk; Sample.bills] ALL None)
          [] false))))))))).
  vm_compute. pick.
Defined.


(** After the second button is pressed it is the highlighted one. *)
Lemma filterBar_highlight_witness :
  ("Completed", Contained, COMPLETED).1.2 = Contained.
Proof.
  apply (proj2 (proj2 (filterBar_highlight COMPLETED
    (Sample.later (Sample.showing [] ALL None) [] false)))
    ("Completed", Contained, COMPLETED)).
  - vm_compute. pick.
  - reflexivity.
Defined.

(** The start-up of [src/App.tsx] with its request rejected still ends
    on its log line, with the spinner off. *)
Lemma template_loadTasks_settles_witness :
  let w := Sample.boot ∅ [None] false false in
  last (did Template.loadTasks w) = Some (ConsoleLog "tasks")
  ∧ loading (state (after Template.loadTasks w)) = false.
Proof.
  destruct (template_loadTasks_settles (Sample.boot ∅ [None] false false))
    as (_ & Hlast & _ & Hl & _).
  split; [exact Hlast | exact Hl].
Defined.

(** The two fetches on an answered request. *)
Lemma fetchTasks_agree_witness :
  let w := Sample.boot ∅ [Some [Sample.milk]] false false in
  state (after (fetchTasks (J := Sample.json)) w)
  = state (after Template.fetchTasks w).
Proof.
  apply (proj1 (proj2 (fetchTasks_agree (J := Sample.json)
    (Sample.boot ∅ [Some [Sample.milk]] false false) (or_introl eq_refl)))).
Defined.
